(** * Safe-change guardrail planner (planner.cpp)

    A shallow embedding of the rules engine of [planner.cpp]: the
    [AccessPoint] and [ChangeRequest] structs, the [SafeChangePlanner]
    class with its [network_state] map, the three operations [add_ap],
    [get_ap_state] and [process_request], and the test driver [main].

    - [std::map<std::string, AccessPoint>] is a [gmap string AccessPoint].
    - [int] is a [Z] together with 32-bit two's complement wrap-around,
      written out in [wrap]; every arithmetic operation of the source
      ([-], unary [-], [*], [std::abs]) goes through it.  ISO C++ leaves
      signed overflow undefined; [wrap] is what the usual targets compute.
      Results stated under [Int.in_range] side conditions involve no
      overflow and do not depend on that choice.
    - [std::optional<int>] is [option Z].
    - Writing to [std::cout] is modelled as the list of lines printed by a
      call, in order; [render] gives the text of each line.
    - [process_request] mutates the stored record through a reference into
      the map; here it returns the new map. *)

From Stdlib Require Import ZArith Ascii String Lia.
From stdpp Require Import base gmap strings pretty list fin_maps.

Local Open Scope Z_scope.

(** ** Machine integers *)

Module Int.

Definition INT_MIN : Z := -2147483648.
Definition INT_MAX : Z := 2147483647.

(** Reduction of a mathematical integer to the value the 32-bit signed
    representation holds. *)
Definition wrap (z : Z) : Z := (z + 2147483648) mod 4294967296 - 2147483648.

Definition in_range (z : Z) : Prop := INT_MIN ≤ z ≤ INT_MAX.

Definition sub (a b : Z) : Z := wrap (a - b).
Definition neg (a : Z) : Z := wrap (- a).
Definition mul (a b : Z) : Z := wrap (a * b).
(** [std::abs] on [int]. *)
Definition abs (a : Z) : Z := wrap (Z.abs a).

End Int.

(** ** Configuration *)

Definition CHANGE_BUDGET_MINUTES : Z := Int.mul 4 60.
Definition HYSTERESIS_THRESHOLD_DB : Z := 2.

(** ** Data structures *)

Record AccessPoint : Type := mkAccessPoint {
  id : string;
  channel : Z;
  power_db : Z;
  last_change_time_minutes : Z
}.

(** The default member initialiser of [last_change_time_minutes]. *)
Definition default_last_change_time_minutes : Z :=
  Int.sub (Int.neg CHANGE_BUDGET_MINUTES) 1.

(** An [AccessPoint] aggregate-initialised with its first three members
    only, so that the default member initialiser applies. *)
Definition new_AccessPoint (i : string) (ch pw : Z) : AccessPoint :=
  mkAccessPoint i ch pw default_last_change_time_minutes.

Record ChangeRequest : Type := mkChangeRequest {
  new_channel : option Z;
  new_power_db : option Z;
  is_emergency : bool
}.

Definition set_channel (ap : AccessPoint) (v : Z) : AccessPoint :=
  mkAccessPoint (id ap) v (power_db ap) (last_change_time_minutes ap).
Definition set_power_db (ap : AccessPoint) (v : Z) : AccessPoint :=
  mkAccessPoint (id ap) (channel ap) v (last_change_time_minutes ap).
Definition set_last_change_time_minutes (ap : AccessPoint) (v : Z) : AccessPoint :=
  mkAccessPoint (id ap) (channel ap) (power_db ap) v.

(** ** Output written to [std::cout] *)

Inductive Line : Type :=
| StateAdded (ap_id : string) (ch pw : Z)
| RejectNotFound (ap_id : string)
| Processing (ap_id : string) (t : Z)
| RejectPeakHour
| RejectBudget (time_since_last_change : Z)
| RejectHysteresis (power_change_amount : Z)
| AcceptAll
| AppliedChannel (ch : Z)
| AppliedPower (pw : Z)
| InfoNoChange.

Definition endl : string := String "010"%char EmptyString.

Definition render (l : Line) : string :=
  match l with
  | StateAdded i ch pw =>
      "[State] Added AP: " +:+ i +:+ " (Ch: " +:+ pretty ch
        +:+ ", Pwr: " +:+ pretty pw +:+ "dB)" +:+ endl
  | RejectNotFound i =>
      "[Planner] REJECT: AP '" +:+ i +:+ "' not found in network state." +:+ endl
  | Processing i t =>
      endl +:+ "--- Processing Request for " +:+ i +:+ " at T=" +:+ pretty t
        +:+ " ---" +:+ endl
  | RejectPeakHour =>
      "[Planner] REJECT: Change blocked by Time Window (Peak Hour)." +:+ endl
  | RejectBudget d =>
      "[Planner] REJECT: Change blocked by Budget (Last change " +:+ pretty d
        +:+ " min ago)." +:+ endl
  | RejectHysteresis d =>
      "[Planner] REJECT: Change blocked by Hysteresis (Delta: " +:+ pretty d
        +:+ "dB)." +:+ endl
  | AcceptAll => "[Planner] ACCEPT: All guardrails passed." +:+ endl
  | AppliedChannel ch => "[State]   Applied channel -> " +:+ pretty ch +:+ endl
  | AppliedPower pw => "[State]   Applied power -> " +:+ pretty pw +:+ "dB" +:+ endl
  | InfoNoChange =>
      "[Planner] Info: Request accepted but no state change occurred." +:+ endl
  end.

(** ** The rules engine *)

(** What one call of a member function leaves behind: its return value,
    the lines it printed and the [network_state] after it. *)
Record Outcome (A : Type) : Type := mkOutcome {
  returned : A;
  printed : list Line;
  state : gmap string AccessPoint
}.
Arguments mkOutcome {A} _ _ _.
Arguments returned {A} _.
Arguments printed {A} _.
Arguments state {A} _.

Module SafeChangePlanner.

Definition add_ap (ap : AccessPoint) (network_state : gmap string AccessPoint)
  : Outcome unit :=
  mkOutcome tt
    [StateAdded (id ap) (channel ap) (power_db ap)]
    (<[id ap := ap]> network_state).

(** [std::map::at] throws [std::out_of_range] on a missing key: [None]. *)
Definition get_ap_state (ap_id : string)
    (network_state : gmap string AccessPoint) : option AccessPoint :=
  network_state !! ap_id.

(** Rule 1: Time Windows. *)
Definition time_window_blocks (request : ChangeRequest) (is_peak_hour : bool)
  : bool :=
  is_peak_hour && negb (is_emergency request).

(** Rule 2: the local [time_since_last_change]. *)
Definition time_since_last_change (current_time_minutes : Z) (ap : AccessPoint)
  : Z :=
  Int.sub current_time_minutes (last_change_time_minutes ap).

(** Rule 3: the local [power_change_amount], for a requested power. *)
Definition power_change_amount (new_power : Z) (ap : AccessPoint) : Z :=
  Int.abs (Int.sub new_power (power_db ap)).

(** Rule 3 as a whole: [Some delta] when the request carries a power value
    whose distance [delta] to the current one is under the threshold. *)
Definition hysteresis_blocks (request : ChangeRequest) (ap : AccessPoint)
  : option Z :=
  match new_power_db request with
  | Some p =>
      let power_change_amount := power_change_amount p ap in
      if power_change_amount <? HYSTERESIS_THRESHOLD_DB
      then Some power_change_amount else None
  | None => None
  end.

(** The part of [process_request] after "All Rules Passed": the record
    the reference [ap] designates at the end, and the lines printed. *)
Definition apply_channel (request : ChangeRequest) (st : AccessPoint * list Line * bool)
  : AccessPoint * list Line * bool :=
  let '(ap, out, changed) := st in
  match new_channel request with
  | Some v =>
      if negb (channel ap =? v)
      then (set_channel ap v, out ++ [AppliedChannel v], true)
      else st
  | None => st
  end.

Definition apply_power (request : ChangeRequest) (st : AccessPoint * list Line * bool)
  : AccessPoint * list Line * bool :=
  let '(ap, out, changed) := st in
  match new_power_db request with
  | Some v =>
      if negb (power_db ap =? v)
      then (set_power_db ap v, out ++ [AppliedPower v], true)
      else st
  | None => st
  end.

Definition stamp (current_time_minutes : Z) (st : AccessPoint * list Line * bool)
  : AccessPoint * list Line :=
  let '(ap, out, changed) := st in
  if changed
  then (set_last_change_time_minutes ap current_time_minutes, out)
  else (ap, out ++ [InfoNoChange]).

Definition apply_request (request : ChangeRequest) (current_time_minutes : Z)
    (ap : AccessPoint) : AccessPoint * list Line :=
  stamp current_time_minutes
    (apply_power request (apply_channel request (ap, [AcceptAll], false))).

Definition process_request (ap_id : string) (request : ChangeRequest)
    (current_time_minutes : Z) (is_peak_hour : bool)
    (network_state : gmap string AccessPoint) : Outcome bool :=
  match network_state !! ap_id with
  | None => mkOutcome false [RejectNotFound ap_id] network_state
  | Some ap =>
      let banner := [Processing ap_id current_time_minutes] in
      if time_window_blocks request is_peak_hour
      then mkOutcome false (banner ++ [RejectPeakHour]) network_state
      else
        let time_since_last_change :=
          time_since_last_change current_time_minutes ap in
        if time_since_last_change <? CHANGE_BUDGET_MINUTES
        then mkOutcome false (banner ++ [RejectBudget time_since_last_change])
               network_state
        else
          match hysteresis_blocks request ap with
          | Some power_change_amount =>
              mkOutcome false (banner ++ [RejectHysteresis power_change_amount])
                network_state
          | None =>
              let '(ap', out) := apply_request request current_time_minutes ap in
              mkOutcome true (banner ++ out) (<[ap_id := ap']> network_state)
          end
  end.

End SafeChangePlanner.

Import SafeChangePlanner.

(** ** Decisions

    [process_request] reports its verdict twice: as the returned [bool] and
    as the REJECT line it prints.  [decision] reads the two together. *)

Inductive Reason : Type := PeakHourBlocked | BudgetExceeded | HysteresisBlocked.

Inductive Decision : Type :=
| Accepted
| Rejected (why : Reason)
| NotFound.

Definition reject_tag (l : Line) : option Decision :=
  match l with
  | RejectNotFound _ => Some NotFound
  | RejectPeakHour => Some (Rejected PeakHourBlocked)
  | RejectBudget _ => Some (Rejected BudgetExceeded)
  | RejectHysteresis _ => Some (Rejected HysteresisBlocked)
  | _ => None
  end.

Definition decision (o : Outcome bool) : option Decision :=
  match returned o, omap reject_tag (printed o) with
  | true, [] => Some Accepted
  | false, [d] => Some d
  | _, _ => None
  end.

(** Whether an optional requested value is present and differs from the
    current one: the guard of each of the two assignments. *)
Definition differs (requested : option Z) (current : Z) : bool :=
  match requested with
  | Some v => negb (current =? v)
  | None => false
  end.

(** ** Well-formed stores *)

Definition ap_in_range (ap : AccessPoint) : Prop :=
  Int.in_range (channel ap) ∧ Int.in_range (power_db ap)
  ∧ Int.in_range (last_change_time_minutes ap).

Definition request_in_range (request : ChangeRequest) : Prop :=
  (∀ v, new_channel request = Some v → Int.in_range v)
  ∧ (∀ v, new_power_db request = Some v → Int.in_range v).

(** Every record is stored under its own [id], as [add_ap] puts it. *)
Definition keyed (ns : gmap string AccessPoint) : Prop :=
  ∀ k ap, ns !! k = Some ap → id ap = k.

Definition store_in_range (ns : gmap string AccessPoint) : Prop :=
  ∀ k ap, ns !! k = Some ap → ap_in_range ap.

(** The body of [main]: the seven unit tests, each with the values its
    assertions inspect. *)
Definition main_trace : list (bool * option AccessPoint) :=
  let ap1 := mkAccessPoint "AP-001" 6 20 0 in
  let s0 := state (add_ap ap1 ∅) in
  let run req t peak s :=
    let o := process_request "AP-001" req t peak s in
    (returned o, get_ap_state "AP-001" (state o), state o) in
  let '(res1, g1, s1) := run (mkChangeRequest (Some 11) None false) 100 false s0 in
  let '(res2, g2, s2) := run (mkChangeRequest (Some 11) None false) 250 false s1 in
  let '(res3, g3, s3) := run (mkChangeRequest None (Some 21) false) 500 false s2 in
  let '(res4, g4, s4) := run (mkChangeRequest None (Some 22) false) 500 false s3 in
  let '(res5, g5, s5) := run (mkChangeRequest (Some 1) None false) 800 true s4 in
  let '(res6, g6, s6) := run (mkChangeRequest (Some 1) None true) 800 true s5 in
  let '(res7, g7, s7) := run (mkChangeRequest (Some 6) None false) 1100 false s6 in
  [(res1, g1); (res2, g2); (res3, g3); (res4, g4); (res5, g5); (res6, g6); (res7, g7)].

(** ** The caller: [main]

    [main] drives one planner through seven requests and checks each
    result with [assert].  A failed [assert] aborts the program, and
    [std::map::at] inside [get_ap_state] throws on a missing key; both end
    the run.  [Prog] threads the planner's [network_state] and the text
    written to [std::cout] through the calls and stops at the first
    failure. *)

Inductive Failure : Type :=
| AssertionFailed
| OutOfRange.

Definition Prog (A : Type) : Type :=
  gmap string AccessPoint * list string
  → Failure + A * (gmap string AccessPoint * list string).

Definition ret {A : Type} (a : A) : Prog A := λ w, inr (a, w).

Definition bind {A B : Type} (m : Prog A) (k : A → Prog B) : Prog B :=
  λ w, match m w with
       | inl f => inl f
       | inr (a, w') => k a w'
       end.

Local Notation "'let*' x ':=' m 'in' k" := (bind m (λ x, k))
  (at level 10, x name, m at level 100, k at level 200, only parsing).
Local Notation "m ';;' k" := (bind m (λ _, k))
  (at level 100, k at level 200, right associativity, only parsing).

Definition print (text : string) : Prog unit :=
  λ w, inr (tt, (w.1, w.2 ++ [text])).

Definition assert (b : bool) : Prog unit :=
  λ w, if b then inr (tt, w) else inl AssertionFailed.

Definition call_add_ap (ap : AccessPoint) : Prog unit :=
  λ w, let o := add_ap ap w.1 in
       inr (returned o, (state o, w.2 ++ (render <$> printed o))).

Definition call_process_request (ap_id : string) (request : ChangeRequest)
    (current_time_minutes : Z) (is_peak_hour : bool) : Prog bool :=
  λ w, let o := process_request ap_id request current_time_minutes
                  is_peak_hour w.1 in
       inr (returned o, (state o, w.2 ++ (render <$> printed o))).

Definition call_get_ap_state (ap_id : string) : Prog AccessPoint :=
  λ w, match get_ap_state ap_id w.1 with
       | Some ap => inr (ap, w)
       | None => inl OutOfRange
       end.

Definition main : Prog Z :=
  print ("======== Running Safe-Change Guardrail Tests ========" +:+ endl) ;;
  let ap1 := mkAccessPoint "AP-001" 6 20 0 in
  call_add_ap ap1 ;;
  (* Test 1: Test_Reject_If_Change_Too_Soon *)
  let req1 := mkChangeRequest (Some 11) None false in
  let* res1 := call_process_request "AP-001" req1 100 false in
  assert (eqb res1 false) ;;
  let* a := call_get_ap_state "AP-001" in assert (channel a =? 6) ;;
  (* Test 2: Test_Accept_If_Change_After_Budget *)
  let req2 := mkChangeRequest (Some 11) None false in
  let* res2 := call_process_request "AP-001" req2 250 false in
  assert (eqb res2 true) ;;
  let* a := call_get_ap_state "AP-001" in assert (channel a =? 11) ;;
  let* a := call_get_ap_state "AP-001" in
  assert (last_change_time_minutes a =? 250) ;;
  (* Test 3: Test_Reject_If_Hysteresis_Too_Small *)
  let req3 := mkChangeRequest None (Some 21) false in
  let* res3 := call_process_request "AP-001" req3 500 false in
  assert (eqb res3 false) ;;
  let* a := call_get_ap_state "AP-001" in assert (power_db a =? 20) ;;
  (* Test 4: Test_Accept_If_Hysteresis_Large_Enough *)
  let req4 := mkChangeRequest None (Some 22) false in
  let* res4 := call_process_request "AP-001" req4 500 false in
  assert (eqb res4 true) ;;
  let* a := call_get_ap_state "AP-001" in assert (power_db a =? 22) ;;
  let* a := call_get_ap_state "AP-001" in
  assert (last_change_time_minutes a =? 500) ;;
  (* Test 5: Test_Reject_If_Peak_Hour_And_Not_Emergency *)
  let req5 := mkChangeRequest (Some 1) None false in
  let* res5 := call_process_request "AP-001" req5 800 true in
  assert (eqb res5 false) ;;
  let* a := call_get_ap_state "AP-001" in assert (channel a =? 11) ;;
  (* Test 6: Test_Accept_If_Peak_Hour_And_Is_Emergency *)
  let req6 := mkChangeRequest (Some 1) None true in
  let* res6 := call_process_request "AP-001" req6 800 true in
  assert (eqb res6 true) ;;
  let* a := call_get_ap_state "AP-001" in assert (channel a =? 1) ;;
  let* a := call_get_ap_state "AP-001" in
  assert (last_change_time_minutes a =? 800) ;;
  (* Test 7: Test_Channel_Change_Only_Skips_Hysteresis *)
  let req7 := mkChangeRequest (Some 6) None false in
  let* res7 := call_process_request "AP-001" req7 1100 false in
  assert (eqb res7 true) ;;
  let* a := call_get_ap_state "AP-001" in assert (channel a =? 6) ;;
  let* a := call_get_ap_state "AP-001" in
  assert (last_change_time_minutes a =? 1100) ;;
  print (endl +:+ "======== All C++ Tests Passed Successfully! ========" +:+ endl) ;;
  ret 0.

(** The character [c] does not occur in the text [s]. *)
Definition absent (c : ascii) (s : string) : Prop :=
  ∀ u v, s ≠ u +:+ String c v.

(** ** The exits of [process_request]

    [exit_of ap_id request t peak ns o] holds when [o] is what one of the
    five [return] statements of [process_request] leaves, under the
    conditions that lead to it. *)

Inductive exit_of (ap_id : string) (request : ChangeRequest)
    (current_time_minutes : Z) (is_peak_hour : bool)
    (network_state : gmap string AccessPoint) : Outcome bool → Prop :=
| ExitNotFound :
    network_state !! ap_id = None →
    exit_of ap_id request current_time_minutes is_peak_hour network_state
      (mkOutcome false [RejectNotFound ap_id] network_state)
| ExitPeakHour ap :
    network_state !! ap_id = Some ap →
    time_window_blocks request is_peak_hour = true →
    exit_of ap_id request current_time_minutes is_peak_hour network_state
      (mkOutcome false [Processing ap_id current_time_minutes; RejectPeakHour]
         network_state)
| ExitBudget ap :
    network_state !! ap_id = Some ap →
    time_window_blocks request is_peak_hour = false →
    time_since_last_change current_time_minutes ap < CHANGE_BUDGET_MINUTES →
    exit_of ap_id request current_time_minutes is_peak_hour network_state
      (mkOutcome false
         [Processing ap_id current_time_minutes;
          RejectBudget (time_since_last_change current_time_minutes ap)]
         network_state)
| ExitHysteresis ap d :
    network_state !! ap_id = Some ap →
    time_window_blocks request is_peak_hour = false →
    CHANGE_BUDGET_MINUTES ≤ time_since_last_change current_time_minutes ap →
    hysteresis_blocks request ap = Some d →
    exit_of ap_id request current_time_minutes is_peak_hour network_state
      (mkOutcome false [Processing ap_id current_time_minutes; RejectHysteresis d]
         network_state)
| ExitAccept ap :
    network_state !! ap_id = Some ap →
    time_window_blocks request is_peak_hour = false →
    CHANGE_BUDGET_MINUTES ≤ time_since_last_change current_time_minutes ap →
    hysteresis_blocks request ap = None →
    exit_of ap_id request current_time_minutes is_peak_hour network_state
      (mkOutcome true
         (Processing ap_id current_time_minutes
            :: (apply_request request current_time_minutes ap).2)
         (<[ap_id := (apply_request request current_time_minutes ap).1]>
            network_state)).

(** * Properties *)

(** ** Machine arithmetic *)

Section IntFacts.

Lemma wrap_in_range z : Int.in_range z → Int.wrap z = z.
Proof.
  unfold Int.in_range, Int.INT_MIN, Int.INT_MAX, Int.wrap. intros Hz.
  rewrite Z.mod_small; lia.
Qed.

Lemma wrap_range z : Int.in_range (Int.wrap z).
Proof.
  unfold Int.in_range, Int.INT_MIN, Int.INT_MAX, Int.wrap.
  pose proof (Z.mod_pos_bound (z + 2147483648) 4294967296). lia.
Qed.

Lemma sub_exact a b : Int.in_range (a - b) → Int.sub a b = a - b.
Proof. apply wrap_in_range. Qed.

Lemma sub_diag a : Int.sub a a = 0.
Proof. unfold Int.sub. by rewrite Z.sub_diag. Qed.

Lemma abs_exact a : Int.in_range (Z.abs a) → Int.abs a = Z.abs a.
Proof. apply wrap_in_range. Qed.

Lemma CHANGE_BUDGET_MINUTES_eq : CHANGE_BUDGET_MINUTES = 240.
Proof. reflexivity. Qed.

Lemma default_last_change_time_minutes_eq :
  default_last_change_time_minutes = -241.
Proof. reflexivity. Qed.

End IntFacts.

(** ** One equation per exit of [process_request] *)

Section Exits.

Variables (ap_id : string) (request : ChangeRequest).
Variables (current_time_minutes : Z) (is_peak_hour : bool).
Variable network_state : gmap string AccessPoint.

Lemma exit_not_found :
  network_state !! ap_id = None →
  process_request ap_id request current_time_minutes is_peak_hour network_state
  = mkOutcome false [RejectNotFound ap_id] network_state.
Proof. intros H. unfold process_request. by rewrite H. Qed.

Lemma exit_peak_hour ap :
  network_state !! ap_id = Some ap →
  time_window_blocks request is_peak_hour = true →
  process_request ap_id request current_time_minutes is_peak_hour network_state
  = mkOutcome false [Processing ap_id current_time_minutes; RejectPeakHour]
      network_state.
Proof. intros Hfound H. unfold process_request. by rewrite Hfound, H. Qed.

Lemma exit_budget ap :
  network_state !! ap_id = Some ap →
  time_window_blocks request is_peak_hour = false →
  time_since_last_change current_time_minutes ap < CHANGE_BUDGET_MINUTES →
  process_request ap_id request current_time_minutes is_peak_hour network_state
  = mkOutcome false
      [Processing ap_id current_time_minutes;
       RejectBudget (time_since_last_change current_time_minutes ap)]
      network_state.
Proof.
  intros Hfound Hw Hb. unfold process_request. rewrite Hfound, Hw.
  apply Z.ltb_lt in Hb. by rewrite Hb.
Qed.

Lemma exit_hysteresis ap d :
  network_state !! ap_id = Some ap →
  time_window_blocks request is_peak_hour = false →
  CHANGE_BUDGET_MINUTES ≤ time_since_last_change current_time_minutes ap →
  hysteresis_blocks request ap = Some d →
  process_request ap_id request current_time_minutes is_peak_hour network_state
  = mkOutcome false [Processing ap_id current_time_minutes; RejectHysteresis d]
      network_state.
Proof.
  intros Hfound Hw Hb Hh. unfold process_request. rewrite Hfound, Hw.
  apply Z.ltb_ge in Hb. by rewrite Hb, Hh.
Qed.

Lemma exit_accept ap :
  network_state !! ap_id = Some ap →
  time_window_blocks request is_peak_hour = false →
  CHANGE_BUDGET_MINUTES ≤ time_since_last_change current_time_minutes ap →
  hysteresis_blocks request ap = None →
  process_request ap_id request current_time_minutes is_peak_hour network_state
  = mkOutcome true
      (Processing ap_id current_time_minutes
         :: (apply_request request current_time_minutes ap).2)
      (<[ap_id := (apply_request request current_time_minutes ap).1]>
         network_state).
Proof.
  intros Hfound Hw Hb Hh. unfold process_request. rewrite Hfound, Hw.
  apply Z.ltb_ge in Hb. rewrite Hb, Hh.
  by destruct (apply_request request current_time_minutes ap).
Qed.

(** The five exits are all there is: [process_request] is total and
    always leaves through exactly one of them. *)
Lemma process_request_exit :
  exit_of ap_id request current_time_minutes is_peak_hour network_state
    (process_request ap_id request current_time_minutes is_peak_hour
       network_state).
Proof.
  destruct (network_state !! ap_id) as [ap|] eqn:Hfound.
  - destruct (time_window_blocks request is_peak_hour) eqn:Hw.
    + rewrite (exit_peak_hour ap) by done. by eapply ExitPeakHour.
    + destruct (Z.lt_ge_cases (time_since_last_change current_time_minutes ap)
                  CHANGE_BUDGET_MINUTES) as [Hb|Hb].
      * rewrite (exit_budget ap) by done. by apply ExitBudget.
      * destruct (hysteresis_blocks request ap) as [d|] eqn:Hh.
        -- rewrite (exit_hysteresis ap d) by done. by eapply ExitHysteresis.
        -- rewrite (exit_accept ap) by done. by apply ExitAccept.
  - rewrite exit_not_found by done. by apply ExitNotFound.
Qed.

End Exits.

(** ** What an accepted request does to the record *)

Section Apply.

Variables (request : ChangeRequest) (current_time_minutes : Z) (ap : AccessPoint).

Ltac by_cases :=
  unfold apply_request, apply_power, apply_channel, stamp, differs;
  destruct request as [[c|] [p|] e]; cbn [new_channel new_power_db];
  cbn [set_channel channel power_db];
  repeat match goal with
         | |- context [?a =? ?b] =>
             let E := fresh "E" in destruct (Z.eqb_spec a b) as [E|E]; cbn
         end.

Lemma apply_request_unfold :
  (apply_request request current_time_minutes ap).1
  = let ch := differs (new_channel request) (channel ap) in
    let pw := differs (new_power_db request) (power_db ap) in
    mkAccessPoint (id ap)
      (if ch then default (channel ap) (new_channel request) else channel ap)
      (if pw then default (power_db ap) (new_power_db request) else power_db ap)
      (if ch || pw then current_time_minutes else last_change_time_minutes ap).
Proof. by_cases; by destruct ap. Qed.

(** Neither assignment fires: the record the reference designates is
    never written. *)
Lemma apply_request_noop :
  differs (new_channel request) (channel ap) = false →
  differs (new_power_db request) (power_db ap) = false →
  (apply_request request current_time_minutes ap).1 = ap.
Proof.
  intros Hc Hp. rewrite apply_request_unfold. cbn zeta. rewrite Hc, Hp.
  by destruct ap.
Qed.

(** The accepting path prints no REJECT line. *)
Lemma apply_request_no_reject :
  omap reject_tag (apply_request request current_time_minutes ap).2 = [].
Proof. by_cases; reflexivity. Qed.

End Apply.

(** What the lines printed on the accepting path are. *)
Lemma apply_request_printed request t ap :
  (apply_request request t ap).2
  = let ch := differs (new_channel request) (channel ap) in
    let pw := differs (new_power_db request) (power_db ap) in
    [AcceptAll]
    ++ (if ch then [AppliedChannel (default 0 (new_channel request))] else [])
    ++ (if pw then [AppliedPower (default 0 (new_power_db request))] else [])
    ++ (if ch || pw then [] else [InfoNoChange]).
Proof.
  unfold apply_request, apply_power, apply_channel, stamp, differs.
  destruct request as [[c|] [p|] e]; cbn [new_channel new_power_db];
    cbn [set_channel channel power_db];
    repeat match goal with
           | |- context [?a =? ?b] => destruct (Z.eqb_spec a b); cbn
           end; reflexivity.
Qed.

(** ** Decisions of the five exits *)

Lemma decision_exit ap_id request t peak ns o :
  exit_of ap_id request t peak ns o →
  (returned o = true ∧ decision o = Some Accepted)
  ∨ (returned o = false ∧ state o = ns
     ∧ ∃ d, decision o = Some d ∧ d ≠ Accepted).
Proof.
  intros [ | | | | ap Hf Hw Hb Hh ].
  5: { left. split; [done|]. unfold decision. cbn.
       by rewrite apply_request_no_reject. }
  all: right; (split; [done|]); (split; [done|]); eexists; by split.
Qed.

(** Every call yields exactly one decision. *)
Lemma decision_total ap_id request t peak ns :
  is_Some (decision (process_request ap_id request t peak ns)).
Proof.
  destruct (decision_exit _ _ _ _ _ _ (process_request_exit ap_id request t peak ns))
    as [[_ ->]|(_ & _ & d & -> & _)]; eauto.
Qed.

(** ** Rule 2: change budget *)

(** When the subtraction does not overflow, the local
    [time_since_last_change] is the mathematical difference. *)
Lemma time_since_last_change_exact t ap :
  Int.in_range (t - last_change_time_minutes ap) →
  time_since_last_change t ap = t - last_change_time_minutes ap.
Proof. apply sub_exact. Qed.

(** C1, as the code has it.  For a registered device, when the time-window
    rule does not fire (the request is an emergency or it is not peak hour)
    and [current_time_minutes - last_change_time_minutes] is representable
    as an [int] and under [CHANGE_BUDGET_MINUTES] = 240, [process_request]
    rejects with the budget reason, reporting that difference, whatever
    else the request holds, an emergency request included, and the stored
    record is as before.  More generally the same holds whenever the
    32-bit wrap of the difference, which is what the subtraction leaves, is
    under 240. *)
Theorem budget_rejects
    (ns : gmap string AccessPoint) ap_id ap request t peak :
  ns !! ap_id = Some ap →
  is_emergency request = true ∨ peak = false →
  CHANGE_BUDGET_MINUTES = 240
  ∧ (Int.in_range (t - last_change_time_minutes ap) →
     t - last_change_time_minutes ap < 240 →
     process_request ap_id request t peak ns
     = mkOutcome false
         [Processing ap_id t; RejectBudget (t - last_change_time_minutes ap)] ns
     ∧ decision (process_request ap_id request t peak ns)
       = Some (Rejected BudgetExceeded)
     ∧ get_ap_state ap_id (state (process_request ap_id request t peak ns))
       = Some ap)
  ∧ (Int.wrap (t - last_change_time_minutes ap) < 240 →
     process_request ap_id request t peak ns
     = mkOutcome false
         [Processing ap_id t;
          RejectBudget (Int.wrap (t - last_change_time_minutes ap))] ns
     ∧ decision (process_request ap_id request t peak ns)
       = Some (Rejected BudgetExceeded)
     ∧ get_ap_state ap_id (state (process_request ap_id request t peak ns))
       = Some ap).
Proof.
  intros Hfound Hwin.
  assert (time_window_blocks request peak = false) as Hw.
  { unfold time_window_blocks. destruct Hwin as [-> | ->]; [|done].
    by rewrite andb_false_r. }
  assert (Int.wrap (t - last_change_time_minutes ap) < 240 →
          process_request ap_id request t peak ns
          = mkOutcome false
              [Processing ap_id t;
               RejectBudget (Int.wrap (t - last_change_time_minutes ap))] ns
          ∧ decision (process_request ap_id request t peak ns)
            = Some (Rejected BudgetExceeded)
          ∧ get_ap_state ap_id (state (process_request ap_id request t peak ns))
            = Some ap) as Hwrap.
  { intros Hlt. rewrite (exit_budget _ _ _ _ _ ap); [done..|].
    by rewrite CHANGE_BUDGET_MINUTES_eq. }
  split; [done|]. split; [|done].
  intros Hrange Hlt. rewrite <- (wrap_in_range _ Hrange) at 1.
  apply Hwrap. by rewrite wrap_in_range.
Qed.

Lemma budget_rejects_witness :
  let ap := mkAccessPoint "AP-001" 6 20 100 in
  let ns : gmap string AccessPoint := {[ "AP-001" := ap ]} in
  let request := mkChangeRequest (Some 11) (Some 30) true in
  process_request "AP-001" request 300 true ns
  = mkOutcome false [Processing "AP-001" 300; RejectBudget (300 - 100)] ns.
Proof.
  intros ap ns request.
  refine (proj1 (proj1 (proj2
    (budget_rejects ns "AP-001" ap request 300 true _ _)) _ _)).
  - reflexivity.
  - left. reflexivity.
  - vm_compute. split; discriminate.
  - vm_compute. reflexivity.
Defined.

(** C1 read for the mathematical difference of any two [int] values fails
    where the subtraction leaves the [int] range: with a stored timestamp
    of [INT_MAX] and a current time of -2 the difference is -2147483649,
    under 240, yet the subtraction wraps to 2147483647, the budget rule
    passes and the request is accepted and applied. *)
Lemma budget_underflow_accepted :
  let ap := mkAccessPoint "AP-001" 6 20 Int.INT_MAX in
  let ns : gmap string AccessPoint := {[ "AP-001" := ap ]} in
  let request := mkChangeRequest (Some 11) None false in
  let t := -2 in
  Int.in_range t ∧ Int.in_range (last_change_time_minutes ap)
  ∧ ns !! "AP-001" = Some ap
  ∧ t - last_change_time_minutes ap = -2147483649
  ∧ t - last_change_time_minutes ap < CHANGE_BUDGET_MINUTES
  ∧ time_since_last_change t ap = 2147483647
  ∧ process_request "AP-001" request t false ns
    = mkOutcome true
        [Processing "AP-001" t; AcceptAll; AppliedChannel 11]
        {[ "AP-001" := mkAccessPoint "AP-001" 11 20 t ]}
  ∧ decision (process_request "AP-001" request t false ns) = Some Accepted.
Proof.
  cbn zeta. repeat split; vm_compute; congruence.
Qed.

(** ** Rule 1: time windows *)

(** C2.  For a registered device, a non-emergency request evaluated at peak
    hour is rejected with the peak-hour reason, at every time and for every
    requested channel and power, so also where the budget or the hysteresis
    rule would have rejected it; an emergency request is never rejected
    with the peak-hour reason, peak hour or not. *)
Theorem peak_hour_rejects_first
    (ns : gmap string AccessPoint) ap_id ap request t :
  ns !! ap_id = Some ap →
  (is_emergency request = false →
     process_request ap_id request t true ns
     = mkOutcome false [Processing ap_id t; RejectPeakHour] ns
     ∧ decision (process_request ap_id request t true ns)
       = Some (Rejected PeakHourBlocked))
  ∧ (is_emergency request = true →
     ∀ peak, decision (process_request ap_id request t peak ns)
             ≠ Some (Rejected PeakHourBlocked)).
Proof.
  intros Hfound. split.
  - intros He.
    assert (time_window_blocks request true = true) as Hw
      by (unfold time_window_blocks; by rewrite He).
    by rewrite (exit_peak_hour _ _ _ _ _ ap).
  - intros He peak.
    assert (time_window_blocks request peak = false) as Hw.
    { unfold time_window_blocks. rewrite He. by destruct peak. }
    destruct (process_request_exit ap_id request t peak ns)
      as [ | ? ? Hw' | | | ap1 ]; try done.
    + congruence.
    + unfold decision. cbn. by rewrite apply_request_no_reject.
Qed.

Lemma peak_hour_rejects_first_witness :
  let ap := mkAccessPoint "AP-001" 6 20 0 in
  let ns : gmap string AccessPoint := {[ "AP-001" := ap ]} in
  time_since_last_change 100 ap < CHANGE_BUDGET_MINUTES
  ∧ hysteresis_blocks (mkChangeRequest None (Some 21) false) ap = Some 1
  ∧ decision (process_request "AP-001" (mkChangeRequest None (Some 21) false)
                100 true ns)
    = Some (Rejected PeakHourBlocked)
  ∧ decision (process_request "AP-001" (mkChangeRequest None (Some 21) true)
                100 true ns)
    ≠ Some (Rejected PeakHourBlocked).
Proof.
  intros ap ns. split; [vm_compute; reflexivity|]. split; [reflexivity|]. split.
  - refine (proj2 (proj1
      (peak_hour_rejects_first ns "AP-001" ap
         (mkChangeRequest None (Some 21) false) 100 _) _)); reflexivity.
  - refine (proj2
      (peak_hour_rejects_first ns "AP-001" ap
         (mkChangeRequest None (Some 21) true) 100 _) _ true); reflexivity.
Defined.

(** ** Rule 3: hysteresis *)

(** For in-range operands one apart at most, the code's
    [power_change_amount] is the mathematical distance. *)
Lemma power_change_amount_small p ap :
  Int.in_range p → Int.in_range (power_db ap) →
  Z.abs (p - power_db ap) < HYSTERESIS_THRESHOLD_DB →
  power_change_amount p ap = Z.abs (p - power_db ap).
Proof.
  unfold power_change_amount, HYSTERESIS_THRESHOLD_DB. intros Hp Hq Hd.
  rewrite sub_exact, abs_exact; [done|..];
    unfold Int.in_range, Int.INT_MIN, Int.INT_MAX in *; lia.
Qed.

(** C3.  For a registered device and a request past the time-window and
    budget rules: a requested power whose distance to the stored
    [power_db] is under [HYSTERESIS_THRESHOLD_DB] = 2 is rejected with the
    hysteresis reason, whatever [new_channel] holds (stated for the distance
    as the code computes it, and for the mathematical distance of two
    [int] values); with no requested power the request is accepted, so
    never rejected by hysteresis, whatever [new_channel] holds. *)
Theorem hysteresis_rejects_small_power
    (ns : gmap string AccessPoint) ap_id ap request t peak :
  ns !! ap_id = Some ap →
  time_window_blocks request peak = false →
  CHANGE_BUDGET_MINUTES ≤ time_since_last_change t ap →
  (∀ p, new_power_db request = Some p →
        power_change_amount p ap < HYSTERESIS_THRESHOLD_DB →
        process_request ap_id request t peak ns
        = mkOutcome false
            [Processing ap_id t; RejectHysteresis (power_change_amount p ap)] ns
        ∧ decision (process_request ap_id request t peak ns)
          = Some (Rejected HysteresisBlocked))
  ∧ (∀ p, new_power_db request = Some p →
        Int.in_range p → Int.in_range (power_db ap) →
        Z.abs (p - power_db ap) < 2 →
        decision (process_request ap_id request t peak ns)
        = Some (Rejected HysteresisBlocked))
  ∧ (new_power_db request = None →
        returned (process_request ap_id request t peak ns) = true
        ∧ decision (process_request ap_id request t peak ns) = Some Accepted).
Proof.
  intros Hfound Hw Hb.
  assert (∀ p, new_power_db request = Some p →
               power_change_amount p ap < HYSTERESIS_THRESHOLD_DB →
               hysteresis_blocks request ap = Some (power_change_amount p ap))
    as Hblocks.
  { intros p Hp Hd. unfold hysteresis_blocks. rewrite Hp. cbn zeta.
    apply Z.ltb_lt in Hd. by rewrite Hd. }
  split; [|split].
  - intros p Hp Hd.
    by rewrite (exit_hysteresis _ _ _ _ _ ap (power_change_amount p ap)); auto.
  - intros p Hp Hrp Hrq Hd.
    assert (power_change_amount p ap < HYSTERESIS_THRESHOLD_DB) as Hd'
      by (rewrite power_change_amount_small; done).
    by rewrite (exit_hysteresis _ _ _ _ _ ap (power_change_amount p ap)); auto.
  - intros Hp.
    assert (hysteresis_blocks request ap = None) as Hh
      by (unfold hysteresis_blocks; by rewrite Hp).
    rewrite (exit_accept _ _ _ _ _ ap) by done. split; [done|].
    unfold decision. cbn. by rewrite apply_request_no_reject.
Qed.

Lemma hysteresis_rejects_small_power_witness :
  let ap := mkAccessPoint "AP-001" 11 20 250 in
  let ns : gmap string AccessPoint := {[ "AP-001" := ap ]} in
  decision (process_request "AP-001" (mkChangeRequest (Some 1) (Some 21) false)
              500 false ns)
  = Some (Rejected HysteresisBlocked)
  ∧ decision (process_request "AP-001" (mkChangeRequest (Some 1) None false)
                500 false ns)
    = Some Accepted.
Proof.
  intros ap ns. split.
  - refine (proj2 (proj1
      (hysteresis_rejects_small_power ns "AP-001" ap
         (mkChangeRequest (Some 1) (Some 21) false) 500 false _ _ _) 21 _ _)).
    + reflexivity.
    + reflexivity.
    + vm_compute. discriminate.
    + reflexivity.
    + vm_compute. reflexivity.
  - refine (proj2 (proj2 (proj2
      (hysteresis_rejects_small_power ns "AP-001" ap
         (mkChangeRequest (Some 1) None false) 500 false _ _ _)) _)).
    + reflexivity.
    + reflexivity.
    + vm_compute. discriminate.
    + reflexivity.
Defined.

(** ** The decision as a function of the guards *)

Lemma decision_process_request ap_id request t peak
    (ns : gmap string AccessPoint) :
  decision (process_request ap_id request t peak ns)
  = Some match ns !! ap_id with
         | None => NotFound
         | Some ap =>
             if time_window_blocks request peak then Rejected PeakHourBlocked
             else if time_since_last_change t ap <? CHANGE_BUDGET_MINUTES
                  then Rejected BudgetExceeded
                  else match hysteresis_blocks request ap with
                       | Some _ => Rejected HysteresisBlocked
                       | None => Accepted
                       end
         end.
Proof.
  destruct (process_request_exit ap_id request t peak ns)
    as [Hf | ap Hf Hw | ap Hf Hw Hb | ap d Hf Hw Hb Hh | ap Hf Hw Hb Hh];
    rewrite Hf; try rewrite Hw; try done.
  - apply Z.ltb_lt in Hb. by rewrite Hb.
  - apply Z.ltb_ge in Hb. by rewrite Hb, Hh.
  - apply Z.ltb_ge in Hb. rewrite Hb, Hh.
    unfold decision. cbn. by rewrite apply_request_no_reject.
Qed.

(** The returned [bool] is [true] exactly on the accepting exit. *)
Lemma returned_true_iff ap_id request t peak (ns : gmap string AccessPoint) :
  returned (process_request ap_id request t peak ns) = true
  ↔ decision (process_request ap_id request t peak ns) = Some Accepted.
Proof.
  destruct (decision_exit _ _ _ _ _ _ (process_request_exit ap_id request t peak ns))
    as [[-> ->]|(-> & _ & d & -> & Hd)]; [done|].
  split; [done|]. intros [= ->]. done.
Qed.

(** ** Rejections leave the store alone *)

(** C4.  For a registered device, a call of [process_request] that returns
    [false] leaves [network_state] as it was, so that [get_ap_state] gives
    the record of before the call, all four members alike; such a call
    carries one of the three policy reasons. *)
Theorem rejection_leaves_record
    (ns : gmap string AccessPoint) ap_id ap request t peak :
  ns !! ap_id = Some ap →
  returned (process_request ap_id request t peak ns) = false →
  state (process_request ap_id request t peak ns) = ns
  ∧ get_ap_state ap_id (state (process_request ap_id request t peak ns))
    = Some ap
  ∧ ∃ why, decision (process_request ap_id request t peak ns)
           = Some (Rejected why).
Proof.
  intros Hfound Hret.
  destruct (process_request_exit ap_id request t peak ns);
    try congruence; try discriminate Hret;
    (split; [done|]); (split; [done|]); by eexists.
Qed.

Lemma rejection_leaves_record_witness :
  let ap := mkAccessPoint "AP-001" 6 20 0 in
  let ns : gmap string AccessPoint := {[ "AP-001" := ap ]} in
  get_ap_state "AP-001"
    (state (process_request "AP-001" (mkChangeRequest (Some 11) (Some 30) false)
              100 false ns))
  = Some ap.
Proof.
  intros ap ns.
  refine (proj1 (proj2
    (rejection_leaves_record ns "AP-001" ap
       (mkChangeRequest (Some 11) (Some 30) false) 100 false _ _)));
    reflexivity.
Defined.

(** ** Accepted requests *)

(** C5.  For a registered device and a request that passes the three rules,
    [process_request] returns [true] and the stored record afterwards has
    the same [id]; [channel] (resp. [power_db]) holds the requested value
    when one is supplied and differs from the stored one, and is untouched
    otherwise; [last_change_time_minutes] is [current_time_minutes] if and
    only if one of the two members changed, and when none did the whole
    store is as before. *)
Theorem accepted_request_applies
    (ns : gmap string AccessPoint) ap_id ap request t peak :
  ns !! ap_id = Some ap →
  peak = false ∨ is_emergency request = true →
  CHANGE_BUDGET_MINUTES ≤ time_since_last_change t ap →
  (∀ p, new_power_db request = Some p →
        HYSTERESIS_THRESHOLD_DB ≤ power_change_amount p ap) →
  let o := process_request ap_id request t peak ns in
  let ch := differs (new_channel request) (channel ap) in
  let pw := differs (new_power_db request) (power_db ap) in
  returned o = true ∧ decision o = Some Accepted
  ∧ ∃ ap', state o = <[ap_id := ap']> ns
      ∧ get_ap_state ap_id (state o) = Some ap'
      ∧ id ap' = id ap
      ∧ (if ch then new_channel request = Some (channel ap')
         else channel ap' = channel ap)
      ∧ (if pw then new_power_db request = Some (power_db ap')
         else power_db ap' = power_db ap)
      ∧ last_change_time_minutes ap'
        = (if ch || pw then t else last_change_time_minutes ap)
      ∧ (last_change_time_minutes ap' = t ↔ ch || pw = true)
      ∧ (ch || pw = false → ap' = ap ∧ state o = ns).
Proof.
  intros Hfound Hwin Hb Hhys o ch pw.
  assert (time_window_blocks request peak = false) as Hw.
  { unfold time_window_blocks. destruct Hwin as [-> | ->]; [done|].
    by rewrite andb_false_r. }
  assert (hysteresis_blocks request ap = None) as Hh.
  { unfold hysteresis_blocks. destruct (new_power_db request) as [p|]; [|done].
    cbn zeta. specialize (Hhys p eq_refl). apply Z.ltb_ge in Hhys.
    by rewrite Hhys. }
  subst o. rewrite (exit_accept _ _ _ _ _ ap) by done.
  split; [done|]. split.
  { unfold decision. cbn. by rewrite apply_request_no_reject. }
  exists (apply_request request t ap).1. cbn [state].
  split; [done|]. split; [apply lookup_insert_eq|].
  rewrite apply_request_unfold. cbn zeta. fold ch pw.
  cbn [id channel power_db last_change_time_minutes].
  split; [done|]. split.
  { subst ch. unfold differs. destruct (new_channel request); [|done].
    by destruct (negb _). }
  split.
  { subst pw. unfold differs. destruct (new_power_db request); [|done].
    by destruct (negb _). }
  split; [done|]. split.
  - destruct (ch || pw); [done|]. split; [|done].
    intros Heq. exfalso. unfold time_since_last_change in Hb.
    rewrite Heq, sub_diag, CHANGE_BUDGET_MINUTES_eq in Hb. lia.
  - intros Hnone. apply orb_false_iff in Hnone as [Hc Hp].
    rewrite Hc, Hp. cbn.
    assert (mkAccessPoint (id ap) (channel ap) (power_db ap)
              (last_change_time_minutes ap) = ap) as -> by (by destruct ap).
    split; [done|]. by apply insert_id.
Qed.

Lemma accepted_request_applies_witness :
  let ap := mkAccessPoint "AP-001" 6 20 0 in
  let ns : gmap string AccessPoint := {[ "AP-001" := ap ]} in
  let o := process_request "AP-001" (mkChangeRequest (Some 11) (Some 22) false)
             250 false ns in
  returned o = true ∧ decision o = Some Accepted.
Proof.
  intros ap ns o.
  pose proof (accepted_request_applies ns "AP-001" ap
                (mkChangeRequest (Some 11) (Some 22) false) 250 false) as H.
  cbn zeta in H. refine (let '(conj A (conj B _)) := H _ _ _ _ in conj A B).
  - reflexivity.
  - left. reflexivity.
  - vm_compute. discriminate.
  - intros p [= <-]. vm_compute. discriminate.
Defined.

(** ** Unknown devices *)

(** The text of the not-found line differs from the text of each of the
    three policy lines. *)
Lemma render_not_found_distinct ap_id d :
  render (RejectNotFound ap_id) ≠ render RejectPeakHour
  ∧ render (RejectNotFound ap_id) ≠ render (RejectBudget d)
  ∧ render (RejectNotFound ap_id) ≠ render (RejectHysteresis d).
Proof. repeat split; cbn; discriminate. Qed.

(** C6, as the code has it.  For an identifier with no record,
    [process_request] takes its first exit: it returns [false], the value
    it returns for the three policy rejections too, after printing the
    not-found REJECT line only, and leaves the store alone; nothing is
    thrown.  What sets this exit apart is the printed line, whose text is
    not that of a policy line, and the missing banner.  The line is printed
    for unregistered identifiers only: for a registered device the call
    returns [true] with the ACCEPT line, or [false] with the banner and one
    of the three policy lines. *)
Theorem not_found_is_a_plain_rejection
    (ns : gmap string AccessPoint) ap_id request t peak :
  (ns !! ap_id = None →
     process_request ap_id request t peak ns
     = mkOutcome false [RejectNotFound ap_id] ns
     ∧ get_ap_state ap_id ns = None)
  ∧ (RejectNotFound ap_id ∈ printed (process_request ap_id request t peak ns)
     ↔ ns !! ap_id = None)
  ∧ (∀ ap, ns !! ap_id = Some ap →
       (returned (process_request ap_id request t peak ns) = true
        ∧ AcceptAll ∈ printed (process_request ap_id request t peak ns))
       ∨ (returned (process_request ap_id request t peak ns) = false
          ∧ state (process_request ap_id request t peak ns) = ns
          ∧ (printed (process_request ap_id request t peak ns)
             = [Processing ap_id t; RejectPeakHour]
             ∨ printed (process_request ap_id request t peak ns)
               = [Processing ap_id t;
                  RejectBudget (time_since_last_change t ap)]
             ∨ ∃ p, new_power_db request = Some p
                 ∧ printed (process_request ap_id request t peak ns)
                   = [Processing ap_id t;
                      RejectHysteresis (power_change_amount p ap)])))
  ∧ (∀ d, render (RejectNotFound ap_id) ≠ render RejectPeakHour
          ∧ render (RejectNotFound ap_id) ≠ render (RejectBudget d)
          ∧ render (RejectNotFound ap_id) ≠ render (RejectHysteresis d)).
Proof.
  split; [|split; [|split]].
  - intros Hnone. by rewrite exit_not_found.
  - destruct (process_request_exit ap_id request t peak ns)
      as [Hf | ap Hf Hw | ap Hf Hw Hb | ap d Hf Hw Hb Hh | ap Hf Hw Hb Hh];
      cbn [printed]; rewrite Hf.
    1: { split; [done|]. intros _. apply elem_of_cons. by left. }
    1-3: split; [|done]; intros Hin;
      repeat (apply elem_of_cons in Hin as [Hin|Hin]; [discriminate Hin|]);
      by apply elem_of_nil in Hin.
    split; [|done]. intros Hin. rewrite apply_request_printed in Hin.
    cbn zeta in Hin.
    destruct (differs (new_channel request) (channel ap)),
      (differs (new_power_db request) (power_db ap)); cbn in Hin;
      repeat (apply elem_of_cons in Hin as [Hin|Hin]; [discriminate Hin|]);
      by apply elem_of_nil in Hin.
  - intros ap Hfound.
    destruct (process_request_exit ap_id request t peak ns)
      as [Hf | ap0 Hf Hw | ap0 Hf Hw Hb | ap0 d Hf Hw Hb Hh | ap0 Hf Hw Hb Hh];
      rewrite Hfound in Hf; try discriminate Hf; injection Hf as <-;
      cbn [returned printed state].
    + right. by auto.
    + right. by auto.
    + right. split; [done|]. split; [done|]. right. right.
      unfold hysteresis_blocks in Hh.
      destruct (new_power_db request) as [p|]; [|done]. cbn zeta in Hh.
      exists p. split; [done|]. by case_match; simplify_eq.
    + left. split; [done|]. rewrite apply_request_printed. cbn.
      apply elem_of_cons. right. apply elem_of_cons. by left.
  - apply render_not_found_distinct.
Qed.

Lemma not_found_is_a_plain_rejection_witness :
  let ns : gmap string AccessPoint := {[ "AP-001" := mkAccessPoint "AP-001" 6 20 0 ]} in
  process_request "AP-002" (mkChangeRequest (Some 11) None true) 500 false ns
  = mkOutcome false [RejectNotFound "AP-002"] ns.
Proof.
  intros ns.
  refine (proj1 (proj1
    (not_found_is_a_plain_rejection ns "AP-002"
       (mkChangeRequest (Some 11) None true) 500 false) _)).
  reflexivity.
Defined.

(** C6 read as a failure of its own kind, apart from the policy
    rejections, fails on the value a caller gets: for the unregistered
    AP-002 the call returns [false] and leaves the store alone, exactly as
    the calls for the registered AP-001 that the time window, the budget
    and the hysteresis rule reject. *)
Lemma not_found_returns_as_policy_rejections :
  let ns : gmap string AccessPoint := {[ "AP-001" := mkAccessPoint "AP-001" 6 20 0 ]} in
  let unknown :=
    process_request "AP-002" (mkChangeRequest (Some 11) None false) 100 true ns in
  let peak_blocked :=
    process_request "AP-001" (mkChangeRequest (Some 11) None false) 100 true ns in
  let budget_blocked :=
    process_request "AP-001" (mkChangeRequest (Some 11) None false) 100 false ns in
  let hysteresis_blocked :=
    process_request "AP-001" (mkChangeRequest None (Some 21) false) 250 false ns in
  ns !! "AP-002" = None
  ∧ decision peak_blocked = Some (Rejected PeakHourBlocked)
  ∧ decision budget_blocked = Some (Rejected BudgetExceeded)
  ∧ decision hysteresis_blocked = Some (Rejected HysteresisBlocked)
  ∧ returned unknown = false
  ∧ returned unknown = returned peak_blocked
  ∧ returned unknown = returned budget_blocked
  ∧ returned unknown = returned hysteresis_blocked
  ∧ state unknown = ns
  ∧ state unknown = state peak_blocked
  ∧ state unknown = state budget_blocked
  ∧ state unknown = state hysteresis_blocked.
Proof.
  cbn zeta. repeat split; vm_compute; reflexivity.
Qed.

(** ** Registration *)

(** C7.  [add_ap] has no failing path; afterwards the store holds the
    supplied record under its [id], and nothing else under it: a record
    stored there before has no influence on the result, its
    [last_change_time_minutes] included; the records under the other
    identifiers are the same, and the store has one identifier more exactly
    when the [id] was new. *)
Theorem add_ap_replaces (ns : gmap string AccessPoint) ap :
  get_ap_state (id ap) (state (add_ap ap ns)) = Some ap
  ∧ (∀ r, state (add_ap ap ns) !! id ap = Some r → r = ap)
  ∧ (∀ old, id old = id ap →
       state (add_ap ap (state (add_ap old ns))) = state (add_ap ap ns))
  ∧ (∀ k, k ≠ id ap → state (add_ap ap ns) !! k = ns !! k)
  ∧ dom (state (add_ap ap ns)) = {[ id ap ]} ∪ dom ns
  ∧ size (state (add_ap ap ns))
    = match ns !! id ap with Some _ => size ns | None => S (size ns) end.
Proof.
  unfold get_ap_state, add_ap. cbn [state]. repeat split.
  - apply lookup_insert_eq.
  - rewrite lookup_insert_eq. congruence.
  - intros old ->. apply insert_insert_eq.
  - intros k Hk. by apply lookup_insert_ne.
  - apply dom_insert_L.
  - rewrite map_size_insert. by destruct (ns !! id ap).
Qed.

Lemma add_ap_replaces_witness :
  let old := mkAccessPoint "AP-001" 6 20 250 in
  let ap := new_AccessPoint "AP-001" 1 17 in
  state (add_ap ap (state (add_ap old ∅))) = state (add_ap ap ∅).
Proof.
  intros old ap.
  refine (proj1 (proj2 (proj2 (add_ap_replaces ∅ ap))) old _).
  reflexivity.
Defined.

(** ** The default timestamp *)

(** C8, as the code has it.  For a device whose
    [last_change_time_minutes] is the default -241 and
    [0 ≤ current_time_minutes ≤ INT_MAX - 241], the elapsed time is
    [current_time_minutes + 241], the budget rule passes, and the request
    is not rejected with the budget reason. *)
Theorem default_timestamp_passes_budget
    (ns : gmap string AccessPoint) ap_id ap request t peak :
  ns !! ap_id = Some ap →
  last_change_time_minutes ap = default_last_change_time_minutes →
  0 ≤ t ≤ Int.INT_MAX - 241 →
  time_since_last_change t ap = t + 241
  ∧ CHANGE_BUDGET_MINUTES ≤ time_since_last_change t ap
  ∧ decision (process_request ap_id request t peak ns)
    ≠ Some (Rejected BudgetExceeded).
Proof.
  intros Hfound Hdef Ht. unfold Int.INT_MAX in Ht.
  assert (time_since_last_change t ap = t + 241) as Hsince.
  { unfold time_since_last_change.
    rewrite Hdef, default_last_change_time_minutes_eq, sub_exact; [lia|].
    unfold Int.in_range, Int.INT_MIN, Int.INT_MAX. lia. }
  assert (CHANGE_BUDGET_MINUTES ≤ time_since_last_change t ap) as Hb
    by (rewrite Hsince, CHANGE_BUDGET_MINUTES_eq; lia).
  repeat split; [done..|].
  rewrite decision_process_request, Hfound.
  apply Z.ltb_ge in Hb. rewrite Hb. by repeat case_match.
Qed.

Lemma default_timestamp_passes_budget_witness :
  let ap := new_AccessPoint "AP-001" 6 20 in
  let ns := state (add_ap ap ∅) in
  decision (process_request "AP-001" (mkChangeRequest (Some 11) None false)
              0 false ns)
  ≠ Some (Rejected BudgetExceeded).
Proof.
  intros ap ns.
  refine (proj2 (proj2
    (default_timestamp_passes_budget ns "AP-001" ap
       (mkChangeRequest (Some 11) None false) 0 false _ _ _)));
    [reflexivity | reflexivity | vm_compute; split; discriminate].
Defined.

(** C8 read for every [current_time_minutes ≥ 0] fails at the top of the
    [int] range: for a device just registered with the default timestamp
    and [current_time_minutes = INT_MAX], the subtraction leaves the range,
    the elapsed time comes out negative and the first change is rejected
    with the budget reason. *)
Lemma default_timestamp_overflow :
  let ap := new_AccessPoint "AP-001" 6 20 in
  let ns := state (add_ap ap ∅) in
  let t := Int.INT_MAX in
  0 ≤ t ∧ Int.in_range t
  ∧ last_change_time_minutes ap = default_last_change_time_minutes
  ∧ time_since_last_change t ap = -2147483408
  ∧ ¬ CHANGE_BUDGET_MINUTES ≤ time_since_last_change t ap
  ∧ process_request "AP-001" (mkChangeRequest (Some 11) None false) t false ns
    = mkOutcome false [Processing "AP-001" t; RejectBudget (-2147483408)] ns
  ∧ decision
      (process_request "AP-001" (mkChangeRequest (Some 11) None false) t false ns)
    = Some (Rejected BudgetExceeded).
Proof.
  cbn zeta. repeat split; vm_compute; congruence.
Qed.

(** ** Frame *)

(** C9.  Whatever the outcome of [process_request] for [ap_id], the record
    stored under any other identifier is the same afterwards. *)
Theorem other_devices_untouched
    (ns : gmap string AccessPoint) ap_id request t peak k :
  k ≠ ap_id →
  state (process_request ap_id request t peak ns) !! k = ns !! k
  ∧ get_ap_state k (state (process_request ap_id request t peak ns))
    = get_ap_state k ns.
Proof.
  intros Hk.
  assert (state (process_request ap_id request t peak ns) !! k = ns !! k)
    as H; [|by split].
  destruct (process_request_exit ap_id request t peak ns); try done.
  cbn [state]. by apply lookup_insert_ne.
Qed.

Lemma other_devices_untouched_witness :
  let ap1 := mkAccessPoint "AP-001" 6 20 0 in
  let ap2 := mkAccessPoint "AP-002" 1 17 0 in
  let ns := state (add_ap ap2 (state (add_ap ap1 ∅))) in
  let o := process_request "AP-001" (mkChangeRequest (Some 11) None false)
             250 false ns in
  returned o = true ∧ get_ap_state "AP-002" (state o) = get_ap_state "AP-002" ns.
Proof.
  intros ap1 ap2 ns o. split; [reflexivity|].
  refine (proj2
    (other_devices_untouched ns "AP-001"
       (mkChangeRequest (Some 11) None false) 250 false "AP-002" _)).
  discriminate.
Defined.

(** ** The requested channel plays no part in the decision *)

(** C10.  Two requests with the same [new_power_db] and the same
    [is_emergency], whatever their [new_channel] members (present or not),
    evaluated at the same time with the same peak-hour flag on the same
    store, get the same returned value and the same decision. *)
Theorem decision_ignores_channel
    (ns : gmap string AccessPoint) ap_id r1 r2 t peak :
  new_power_db r1 = new_power_db r2 →
  is_emergency r1 = is_emergency r2 →
  returned (process_request ap_id r1 t peak ns)
  = returned (process_request ap_id r2 t peak ns)
  ∧ decision (process_request ap_id r1 t peak ns)
    = decision (process_request ap_id r2 t peak ns).
Proof.
  intros Hp He.
  assert (decision (process_request ap_id r1 t peak ns)
          = decision (process_request ap_id r2 t peak ns)) as Hd.
  { rewrite !decision_process_request.
    unfold time_window_blocks, hysteresis_blocks. by rewrite Hp, He. }
  split; [|done].
  pose proof (returned_true_iff ap_id r1 t peak ns) as H1.
  pose proof (returned_true_iff ap_id r2 t peak ns) as H2.
  rewrite Hd in H1.
  destruct (returned (process_request ap_id r1 t peak ns)),
    (returned (process_request ap_id r2 t peak ns)); try done.
  - symmetry. apply H2, H1. done.
  - apply H1, H2. done.
Qed.

Lemma decision_ignores_channel_witness :
  let ns : gmap string AccessPoint := {[ "AP-001" := mkAccessPoint "AP-001" 6 20 0 ]} in
  decision (process_request "AP-001" (mkChangeRequest (Some 11) (Some 21) false)
              250 false ns)
  = decision (process_request "AP-001" (mkChangeRequest None (Some 21) false)
                250 false ns).
Proof.
  intros ns.
  refine (proj2
    (decision_ignores_channel ns "AP-001"
       (mkChangeRequest (Some 11) (Some 21) false)
       (mkChangeRequest None (Some 21) false) 250 false _ _));
    reflexivity.
Defined.

(** ** Invariants of the store *)

Lemma keyed_empty : keyed ∅.
Proof. intros k ap. by rewrite lookup_empty. Qed.

Lemma keyed_add_ap ns ap : keyed ns → keyed (state (add_ap ap ns)).
Proof.
  intros Hns k r. unfold add_ap. cbn [state]. rewrite lookup_insert.
  case_decide; [|apply Hns]. intros [= <-]. done.
Qed.

Lemma keyed_process_request ns ap_id request t peak :
  keyed ns → keyed (state (process_request ap_id request t peak ns)).
Proof.
  intros Hns.
  destruct (process_request_exit ap_id request t peak ns)
    as [ | | | | ap Hf _ _ _ ]; try done.
  intros k r. cbn [state]. rewrite lookup_insert.
  case_decide as Hk; [|apply Hns]. intros [= <-]. subst k.
  rewrite apply_request_unfold. cbn. by apply Hns.
Qed.

(** Members stay [int] values when the inputs are. *)
Lemma store_in_range_process_request ns ap_id request t peak :
  store_in_range ns → request_in_range request → Int.in_range t →
  store_in_range (state (process_request ap_id request t peak ns)).
Proof.
  intros Hns [Hrc Hrp] Ht.
  destruct (process_request_exit ap_id request t peak ns)
    as [ | | | | ap Hf _ _ _ ]; try done.
  intros k r. cbn [state]. rewrite lookup_insert.
  case_decide as Hk; [|apply Hns]. intros [= <-].
  destruct (Hns _ _ Hf) as (Hc & Hp & Hl).
  rewrite apply_request_unfold. unfold ap_in_range, differs. cbn.
  split_and!; repeat case_match; cbn; eauto.
Qed.

(** ** The unit tests of [main] *)

(** The seven returned values and the records the assertions of [main]
    inspect; every [assert] of the source holds on them. *)
Lemma main_asserts_hold :
  main_trace
  = [ (false, Some (mkAccessPoint "AP-001" 6 20 0));
      (true, Some (mkAccessPoint "AP-001" 11 20 250));
      (false, Some (mkAccessPoint "AP-001" 11 20 250));
      (true, Some (mkAccessPoint "AP-001" 11 22 500));
      (false, Some (mkAccessPoint "AP-001" 11 22 500));
      (true, Some (mkAccessPoint "AP-001" 1 22 800));
      (true, Some (mkAccessPoint "AP-001" 6 22 1100)) ].
Proof. vm_compute. reflexivity. Qed.

(** * Further properties of the rules engine *)

(** ** The stored record after a call *)


(** The store after a call for a registered device: the same, or the same
    with the record under [ap_id] replaced by what [apply_request] leaves,
    the latter on the accepting exit only. *)
Lemma process_request_state (ns : gmap string AccessPoint) ap_id ap request t peak :
  ns !! ap_id = Some ap →
  (returned (process_request ap_id request t peak ns) = false
   ∧ state (process_request ap_id request t peak ns) = ns)
  ∨ (returned (process_request ap_id request t peak ns) = true
     ∧ CHANGE_BUDGET_MINUTES ≤ time_since_last_change t ap
     ∧ hysteresis_blocks request ap = None
     ∧ printed (process_request ap_id request t peak ns)
       = Processing ap_id t :: (apply_request request t ap).2
     ∧ state (process_request ap_id request t peak ns)
       = <[ap_id := (apply_request request t ap).1]> ns).
Proof.
  intros Hfound.
  destruct (process_request_exit ap_id request t peak ns)
    as [Hf | ? Hf ? | ? Hf ? ? | ? ? Hf ? ? ? | ap0 Hf ? ? ?];
    rewrite Hfound in Hf; try discriminate Hf; try (left; by split).
  injection Hf as <-. right. by repeat split.
Qed.



(** X2.  When [current_time_minutes - last_change_time_minutes] does not
    overflow, one call either keeps the stored timestamp or sets it to
    [current_time_minutes], which is then at least
    [CHANGE_BUDGET_MINUTES] = 240 more than the timestamp stored before
    the call. *)
Theorem timestamp_moves_by_budget
    (ns : gmap string AccessPoint) ap_id ap request t peak :
  ns !! ap_id = Some ap →
  Int.in_range (t - last_change_time_minutes ap) →
  ∃ ap', state (process_request ap_id request t peak ns) !! ap_id = Some ap'
    ∧ (last_change_time_minutes ap' = last_change_time_minutes ap
       ∨ (last_change_time_minutes ap' = t
          ∧ last_change_time_minutes ap + 240 ≤ t)).
Proof.
  intros Hfound Hrange.
  destruct (process_request_state ns ap_id ap request t peak Hfound)
    as [[_ ->]|(_ & Hb & _ & _ & ->)]; [by eauto|].
  exists (apply_request request t ap).1. split; [apply lookup_insert_eq|].
  rewrite apply_request_unfold. cbn.
  destruct (_ || _); [right|by left]. split; [done|].
  rewrite time_since_last_change_exact, CHANGE_BUDGET_MINUTES_eq in Hb by done.
  lia.
Qed.

Lemma timestamp_moves_by_budget_witness :
  let ap := mkAccessPoint "AP-001" 6 20 0 in
  let ns : gmap string AccessPoint := {[ "AP-001" := ap ]} in
  ∃ ap', state (process_request "AP-001" (mkChangeRequest (Some 11) None false)
                  250 false ns) !! "AP-001" = Some ap'
    ∧ (last_change_time_minutes ap' = 0
       ∨ (last_change_time_minutes ap' = 250 ∧ 0 + 240 ≤ 250)).
Proof.
  intros ap ns.
  refine (timestamp_moves_by_budget ns "AP-001" ap
            (mkChangeRequest (Some 11) None false) 250 false _ _).
  - reflexivity.
  - vm_compute. split; discriminate.
Defined.

(** X3.  A call that leaves a store different from the one it found
    returned [true], and the record of its device now carries
    [current_time_minutes] as its timestamp, with a [channel] or a
    [power_db] that differs from the one of before: no member changes
    without the timestamp being set, and nothing changes on a rejection or
    for an unknown device. *)
Theorem every_change_is_stamped
    (ns : gmap string AccessPoint) ap_id request t peak :
  state (process_request ap_id request t peak ns) ≠ ns →
  returned (process_request ap_id request t peak ns) = true
  ∧ ∃ ap ap', ns !! ap_id = Some ap
      ∧ state (process_request ap_id request t peak ns) !! ap_id = Some ap'
      ∧ last_change_time_minutes ap' = t
      ∧ (channel ap' ≠ channel ap ∨ power_db ap' ≠ power_db ap).
Proof.
  intros Hne.
  destruct (ns !! ap_id) as [ap|] eqn:Hfound.
  2: { exfalso. apply Hne. by rewrite exit_not_found. }
  destruct (process_request_state ns ap_id ap request t peak Hfound)
    as [[_ Hst]|(Hr & _ & _ & _ & Hst)]; [done|].
  split; [done|]. exists ap, (apply_request request t ap).1.
  split; [done|]. rewrite Hst. split; [apply lookup_insert_eq|].
  destruct (differs (new_channel request) (channel ap)) eqn:Hc;
    [|destruct (differs (new_power_db request) (power_db ap)) eqn:Hp].
  3: { exfalso. apply Hne. rewrite Hst, apply_request_noop by done.
       by apply insert_id. }
  all: rewrite apply_request_unfold; cbn zeta; rewrite ?Hc, ?Hp;
    cbn [channel power_db last_change_time_minutes orb]; (split; [done|]).
  - left. unfold differs in Hc. destruct (new_channel request); [|done].
    cbn. destruct (Z.eqb_spec (channel ap) z); [done|congruence].
  - right. unfold differs in Hp. destruct (new_power_db request); [|done].
    cbn. destruct (Z.eqb_spec (power_db ap) z); [done|congruence].
Qed.

Lemma every_change_is_stamped_witness :
  let ap := mkAccessPoint "AP-001" 6 20 0 in
  let ns : gmap string AccessPoint := {[ "AP-001" := ap ]} in
  returned (process_request "AP-001" (mkChangeRequest (Some 11) None false)
              250 false ns) = true.
Proof.
  intros ap ns.
  refine (proj1
    (every_change_is_stamped ns "AP-001" (mkChangeRequest (Some 11) None false)
       250 false _)).
  intros H. apply (f_equal (λ m : gmap string AccessPoint, m !! "AP-001")) in H.
  vm_compute in H. discriminate H.
Defined.

(** An optional value [differs] from the current one when it is there and
    is another value. *)
Lemma differs_true requested current :
  differs requested current = true
  ↔ ∃ v, requested = Some v ∧ v ≠ current.
Proof.
  unfold differs. destruct requested as [v|].
  - destruct (Z.eqb_spec current v) as [->|Hne]; cbn.
    + split; [done|]. intros (w & [= <-] & Hw). done.
    + split; [|done]. intros _. exists v. split; [done|congruence].
  - split; [done|]. intros (w & [=] & _).
Qed.

(** X4.  The lines of an accepted call tell what it did: the
    no-state-change line is among them exactly when the store is the one
    of before, an applied-channel (resp. applied-power) line exactly when
    the stored [channel] (resp. [power_db]) is no longer the one of before,
    and that line carries the value now stored. *)
Theorem accepted_lines_match_store
    (ns : gmap string AccessPoint) ap_id ap ap' request t peak :
  ns !! ap_id = Some ap →
  returned (process_request ap_id request t peak ns) = true →
  state (process_request ap_id request t peak ns) !! ap_id = Some ap' →
  (InfoNoChange ∈ printed (process_request ap_id request t peak ns)
   ↔ state (process_request ap_id request t peak ns) = ns)
  ∧ (∀ v, AppliedChannel v ∈ printed (process_request ap_id request t peak ns)
          ↔ channel ap' ≠ channel ap ∧ channel ap' = v)
  ∧ (∀ v, AppliedPower v ∈ printed (process_request ap_id request t peak ns)
          ↔ power_db ap' ≠ power_db ap ∧ power_db ap' = v).
Proof.
  intros Hfound Hret Hafter.
  destruct (process_request_state ns ap_id ap request t peak Hfound)
    as [[Hr _]|(_ & _ & _ & Hpr & Hst)]; [congruence|].
  rewrite Hst, lookup_insert_eq in Hafter. injection Hafter as <-.
  rewrite Hpr, Hst, apply_request_printed, apply_request_unfold. cbn zeta.
  cbn [channel power_db].
  pose proof (differs_true (new_channel request) (channel ap)) as Hc.
  pose proof (differs_true (new_power_db request) (power_db ap)) as Hp.
  assert (∀ r : AccessPoint, <[ap_id := r]> ns = ns ↔ r = ap) as Hins.
  { intros r. split; [|intros ->; by apply insert_id].
    intros H. apply (f_equal (λ m : gmap string AccessPoint, m !! ap_id)) in H.
    rewrite lookup_insert_eq, Hfound in H. congruence. }
  rewrite Hins. clear Hins Hst Hpr Hret Hfound.
  destruct ap as [i c0 p0 l0]. cbn [channel power_db id last_change_time_minutes] in *.
  destruct (differs (new_channel request) c0) eqn:Ec;
    destruct (differs (new_power_db request) p0) eqn:Ep;
    cbn [orb app] in *.
  all: try (destruct (proj1 Hc eq_refl) as (c & -> & Hcne)).
  all: try (destruct (proj1 Hp eq_refl) as (p & -> & Hpne)).
  all: cbn [default from_option Datatypes.id]; clear Hc Hp.
  all: split_and!; try intros v;
    rewrite ?elem_of_cons, ?elem_of_nil.
  all: split; [intros H|intros H].
  all: try (intuition congruence).


Qed.

Lemma accepted_lines_match_store_witness :
  let ap := mkAccessPoint "AP-001" 6 20 0 in
  let ns : gmap string AccessPoint := {[ "AP-001" := ap ]} in
  let o := process_request "AP-001" (mkChangeRequest (Some 6) None false)
             250 false ns in
  InfoNoChange ∈ printed o ↔ state o = ns.
Proof.
  intros ap ns o.
  refine (proj1
    (accepted_lines_match_store ns "AP-001" ap ap
       (mkChangeRequest (Some 6) None false) 250 false _ _ _));
    reflexivity.
Defined.

(** X5.  Whatever the outcome, the record of a registered device keeps its
    [id]; its [channel] is the one of before or the requested one, and the
    one of before when the request names no channel; likewise for
    [power_db]. *)
Theorem unrequested_members_kept
    (ns : gmap string AccessPoint) ap_id ap request t peak :
  ns !! ap_id = Some ap →
  ∃ ap', state (process_request ap_id request t peak ns) !! ap_id = Some ap'
    ∧ id ap' = id ap
    ∧ (channel ap' = channel ap ∨ new_channel request = Some (channel ap'))
    ∧ (power_db ap' = power_db ap ∨ new_power_db request = Some (power_db ap'))
    ∧ (new_channel request = None → channel ap' = channel ap)
    ∧ (new_power_db request = None → power_db ap' = power_db ap).
Proof.
  intros Hfound.
  destruct (process_request_state ns ap_id ap request t peak Hfound)
    as [[_ ->]|(_ & _ & _ & _ & ->)].
  { exists ap. by split_and!; auto. }
  exists (apply_request request t ap).1. split; [apply lookup_insert_eq|].
  rewrite apply_request_unfold. cbn zeta.
  cbn [id channel power_db]. split; [done|].
  pose proof (differs_true (new_channel request) (channel ap)) as Hc.
  pose proof (differs_true (new_power_db request) (power_db ap)) as Hp.
  destruct (differs (new_channel request) (channel ap));
    destruct (differs (new_power_db request) (power_db ap)).
  all: try (destruct (proj1 Hc eq_refl) as (c & Ec & _); rewrite Ec).
  all: try (destruct (proj1 Hp eq_refl) as (p & Ep & _); rewrite Ep).
  all: cbn [default from_option Datatypes.id]; split_and!; auto; discriminate.
Qed.

Lemma unrequested_members_kept_witness :
  let ap := mkAccessPoint "AP-001" 6 20 0 in
  let ns : gmap string AccessPoint := {[ "AP-001" := ap ]} in
  ∃ ap', state (process_request "AP-001" (mkChangeRequest (Some 11) None false)
                  250 false ns) !! "AP-001" = Some ap'
    ∧ id ap' = "AP-001"
    ∧ (channel ap' = 6 ∨ Some 11 = Some (channel ap'))
    ∧ (power_db ap' = 20 ∨ @None Z = Some (power_db ap'))
    ∧ (Some 11 = None → channel ap' = 6)
    ∧ (@None Z = None → power_db ap' = 20).
Proof.
  intros ap ns.
  refine (unrequested_members_kept ns "AP-001" ap
            (mkChangeRequest (Some 11) None false) 250 false _).
  reflexivity.
Defined.

(** X6.  An accepted request that carries a power value always changes the
    record: the stored [power_db] becomes the requested value, which is not
    the one of before, and the timestamp becomes [current_time_minutes].
    For [int] operands the stored power moves by two or more. *)
Theorem accepted_power_request_stamps
    (ns : gmap string AccessPoint) ap_id ap request t peak p :
  ns !! ap_id = Some ap →
  new_power_db request = Some p →
  returned (process_request ap_id request t peak ns) = true →
  ∃ ap', state (process_request ap_id request t peak ns) !! ap_id = Some ap'
    ∧ power_db ap' = p ∧ p ≠ power_db ap
    ∧ last_change_time_minutes ap' = t
    ∧ (Int.in_range p → Int.in_range (power_db ap) →
       HYSTERESIS_THRESHOLD_DB ≤ Z.abs (p - power_db ap)).
Proof.
  intros Hfound Hp Hret.
  destruct (process_request_state ns ap_id ap request t peak Hfound)
    as [[Hr _]|(_ & _ & Hh & _ & ->)]; [congruence|].
  unfold hysteresis_blocks in Hh. rewrite Hp in Hh. cbn zeta in Hh.
  destruct (Z.ltb_spec (power_change_amount p ap) HYSTERESIS_THRESHOLD_DB)
    as [|Hge]; [done|].
  assert (p ≠ power_db ap) as Hne.
  { intros ->. unfold power_change_amount in Hge. rewrite sub_diag in Hge.
    vm_compute in Hge. by apply Hge. }
  assert (differs (new_power_db request) (power_db ap) = true) as Hd.
  { apply differs_true. by exists p. }
  exists (apply_request request t ap).1. split; [apply lookup_insert_eq|].
  rewrite apply_request_unfold. cbn zeta. rewrite Hd, Hp, orb_true_r.
  cbn [power_db last_change_time_minutes default from_option Datatypes.id].
  split_and!; try done.
  intros Hrp Hrq.
  destruct (Z.lt_ge_cases (Z.abs (p - power_db ap)) HYSTERESIS_THRESHOLD_DB)
    as [Hlt|]; [|done].
  rewrite power_change_amount_small in Hge by done. lia.
Qed.

Lemma accepted_power_request_stamps_witness :
  let ap := mkAccessPoint "AP-001" 11 20 250 in
  let ns : gmap string AccessPoint := {[ "AP-001" := ap ]} in
  ∃ ap', state (process_request "AP-001" (mkChangeRequest None (Some 22) false)
                  500 false ns) !! "AP-001" = Some ap'
    ∧ power_db ap' = 22 ∧ 22 ≠ 20 ∧ last_change_time_minutes ap' = 500
    ∧ (Int.in_range 22 → Int.in_range 20 →
       HYSTERESIS_THRESHOLD_DB ≤ Z.abs (22 - 20)).
Proof.
  intros ap ns.
  refine (accepted_power_request_stamps ns "AP-001" ap
            (mkChangeRequest None (Some 22) false) 500 false 22 _ _ _);
    reflexivity.
Defined.

(** ** The emergency flag *)

(** X7.  [is_emergency] is read by the time-window rule and nowhere else:
    two calls whose requests name the same channel and power, and neither
    of which is blocked by the time window, leave the same returned value,
    the same lines and the same store, whatever their emergency and
    peak-hour flags.  So an emergency request at peak hour is treated as
    the same request off peak, and off peak the flag has no effect. *)
Theorem emergency_only_lifts_time_window
    (ns : gmap string AccessPoint) ap_id r r' t peak peak' :
  new_channel r = new_channel r' →
  new_power_db r = new_power_db r' →
  time_window_blocks r peak = false →
  time_window_blocks r' peak' = false →
  process_request ap_id r t peak ns = process_request ap_id r' t peak' ns.
Proof.
  intros Hc Hp Hw Hw'.
  destruct r as [c p e], r' as [c' p' e']. cbn in Hc, Hp. subst c' p'.
  unfold process_request. rewrite Hw, Hw'. reflexivity.
Qed.

Lemma emergency_only_lifts_time_window_witness :
  let ns : gmap string AccessPoint := {[ "AP-001" := mkAccessPoint "AP-001" 6 20 0 ]} in
  process_request "AP-001" (mkChangeRequest (Some 11) (Some 30) true) 250 true ns
  = process_request "AP-001" (mkChangeRequest (Some 11) (Some 30) false) 250 false ns.
Proof.
  intros ns.
  refine (emergency_only_lifts_time_window ns "AP-001"
            (mkChangeRequest (Some 11) (Some 30) true)
            (mkChangeRequest (Some 11) (Some 30) false) 250 true false _ _ _ _);
    reflexivity.
Defined.

(** ** Independence of devices *)

(** A call reads and writes the record under its own [ap_id] only: on two
    stores with the same record there, it returns and prints the same, and
    either leaves both stores alone or puts the same record into both. *)
Lemma process_request_local (ns ns' : gmap string AccessPoint) ap_id request t peak :
  ns !! ap_id = ns' !! ap_id →
  returned (process_request ap_id request t peak ns)
  = returned (process_request ap_id request t peak ns')
  ∧ printed (process_request ap_id request t peak ns)
    = printed (process_request ap_id request t peak ns')
  ∧ ((state (process_request ap_id request t peak ns) = ns
      ∧ state (process_request ap_id request t peak ns') = ns')
     ∨ ∃ ap', state (process_request ap_id request t peak ns) = <[ap_id := ap']> ns
         ∧ state (process_request ap_id request t peak ns')
           = <[ap_id := ap']> ns').
Proof.
  intros Heq. unfold process_request. rewrite <- Heq.
  destruct (ns !! ap_id) as [ap|]; [|by auto].
  destruct (time_window_blocks request peak); [by auto|].
  destruct (_ <? _); [by auto|].
  destruct (hysteresis_blocks request ap); [by auto|].
  destruct (apply_request request t ap) as [ap' out]. cbn.
  split_and!; [done..|]. right. by exists ap'.
Qed.

Lemma process_request_frame (ns : gmap string AccessPoint) ap_id request t peak k :
  k ≠ ap_id →
  state (process_request ap_id request t peak ns) !! k = ns !! k.
Proof.
  intros Hk.
  destruct (process_request_local ns ns ap_id request t peak eq_refl)
    as (_ & _ & [[-> _]|(ap' & -> & _)]); [done|].
  by apply lookup_insert_ne.
Qed.

(** X8.  Requests for two different devices commute: evaluated in either
    order they return and print the same, call by call, and leave the same
    store. *)
Theorem independent_devices_commute
    (ns : gmap string AccessPoint) id1 r1 t1 peak1 id2 r2 t2 peak2 :
  id1 ≠ id2 →
  let a := process_request id1 r1 t1 peak1 ns in
  let b := process_request id2 r2 t2 peak2 (state a) in
  let b' := process_request id2 r2 t2 peak2 ns in
  let a' := process_request id1 r1 t1 peak1 (state b') in
  returned a = returned a' ∧ printed a = printed a'
  ∧ returned b = returned b' ∧ printed b = printed b'
  ∧ state b = state a'.
Proof.
  intros Hne a b b' a'.
  assert (state a !! id2 = ns !! id2) as Ha
    by (apply process_request_frame; congruence).
  assert (ns !! id1 = state b' !! id1) as Hb
    by (symmetry; apply process_request_frame; congruence).
  destruct (process_request_local _ _ id2 r2 t2 peak2 Ha)
    as (Hrb & Hpb & Hsb).
  destruct (process_request_local _ _ id1 r1 t1 peak1 Hb)
    as (Hra & Hpa & Hsa).
  fold a b b' a' in Hrb, Hpb, Hsb, Hra, Hpa, Hsa.
  split_and!; try done.
  destruct Hsb as [[Hb1 Hb2]|(y & Hb1 & Hb2)],
    Hsa as [[Ha1 Ha2]|(x & Ha1 & Ha2)];
    rewrite Hb1, Ha2, ?Ha1, ?Hb2; try done.
  apply insert_insert_ne. congruence.
Qed.

Lemma independent_devices_commute_witness :
  let ap1 := mkAccessPoint "AP-001" 6 20 0 in
  let ap2 := mkAccessPoint "AP-002" 1 17 0 in
  let ns := state (add_ap ap2 (state (add_ap ap1 ∅))) in
  let r1 := mkChangeRequest (Some 11) None false in
  let r2 := mkChangeRequest None (Some 19) false in
  state (process_request "AP-002" r2 300 false
           (state (process_request "AP-001" r1 250 false ns)))
  = state (process_request "AP-001" r1 250 false
             (state (process_request "AP-002" r2 300 false ns))).
Proof.
  intros ap1 ap2 ns r1 r2.
  refine (proj2 (proj2 (proj2 (proj2
    (independent_devices_commute ns "AP-001" r1 250 false "AP-002" r2 300 false
       _))))).
  discriminate.
Defined.

(** ** The set of registered devices *)

(** X9.  [process_request] never registers and never removes a device: the
    identifiers of the store are the same after the call, and so is their
    number; and every record stays under the key that is its own [id]. *)
Theorem process_request_keeps_devices
    (ns : gmap string AccessPoint) ap_id request t peak :
  dom (state (process_request ap_id request t peak ns)) = dom ns
  ∧ size (state (process_request ap_id request t peak ns)) = size ns
  ∧ (keyed ns → keyed (state (process_request ap_id request t peak ns))).
Proof.
  assert (dom (state (process_request ap_id request t peak ns)) = dom ns) as Hd.
  { destruct (process_request_exit ap_id request t peak ns)
      as [ | | | | ap Hf _ _ _ ]; try done.
    cbn [state]. rewrite dom_insert_L.
    apply (elem_of_dom_2 (D := gset string)) in Hf.
    by apply subseteq_union_1_L, singleton_subseteq_l. }
  split_and!; [done| |apply keyed_process_request].
  by rewrite <- !size_dom, Hd.
Qed.

Lemma process_request_keeps_devices_witness :
  let ns := state (add_ap (mkAccessPoint "AP-001" 6 20 0) ∅) in
  keyed (state (process_request "AP-001" (mkChangeRequest (Some 11) None false)
                  250 false ns)).
Proof.
  intros ns.
  refine (proj2 (proj2
    (process_request_keeps_devices ns "AP-001"
       (mkChangeRequest (Some 11) None false) 250 false)) _).
  apply keyed_add_ap, keyed_empty.
Defined.

(** ** Returned value and printed lines *)

(** X10.  The returned value and the printed lines of a call agree: the
    ACCEPT line is printed exactly when the call returns [true]; a call
    that returns [false] prints one REJECT line, as its last line, and a
    call that returns [true] prints none; the processing banner is printed
    exactly when the device is registered, and then first. *)
Theorem verdict_is_printed_once
    (ns : gmap string AccessPoint) ap_id request t peak :
  (AcceptAll ∈ printed (process_request ap_id request t peak ns)
   ↔ returned (process_request ap_id request t peak ns) = true)
  ∧ length (omap reject_tag (printed (process_request ap_id request t peak ns)))
    = (if returned (process_request ap_id request t peak ns) then 0 else 1)%nat
  ∧ (returned (process_request ap_id request t peak ns) = false →
     ∃ l, last (printed (process_request ap_id request t peak ns)) = Some l
          ∧ is_Some (reject_tag l))
  ∧ (Processing ap_id t ∈ printed (process_request ap_id request t peak ns)
     ↔ is_Some (ns !! ap_id))
  ∧ (is_Some (ns !! ap_id) →
     head (printed (process_request ap_id request t peak ns))
     = Some (Processing ap_id t)).
Proof.
  destruct (process_request_exit ap_id request t peak ns)
    as [Hf | ap Hf Hw | ap Hf Hw Hb | ap d Hf Hw Hb Hh | ap Hf Hw Hb Hh];
    cbn [returned printed]; rewrite Hf.
  5: { split_and!.
       - split; [done|]. intros _. rewrite apply_request_printed. cbn.
         apply elem_of_cons. right. apply elem_of_cons. by left.
       - cbn. by rewrite apply_request_no_reject.
       - done.
       - split; [by eauto|]. intros _. apply elem_of_cons. by left.
       - done. }
  all: split_and!.
  all: try (split; [intros Hin|intros Hin]).
  all: try done.
  all: try (by eexists; split; [reflexivity|eexists]).
  all: try (by eauto).
  all: try (repeat (apply elem_of_cons in Hin as [Hin|Hin]; [discriminate Hin|]);
            by apply elem_of_nil in Hin).
  all: try (by destruct Hin).
  all: try (apply elem_of_cons; by left).
  all: try (intros [? [=]]).
Qed.

(** ** Registration and requests together *)

(** X11.  Registering is idempotent, registrations under different
    identifiers commute, and a registration wipes out whatever an earlier
    request did to the device it registers. *)
Theorem add_ap_composes (ns : gmap string AccessPoint) ap :
  state (add_ap ap (state (add_ap ap ns))) = state (add_ap ap ns)
  ∧ (∀ ap2, id ap ≠ id ap2 →
       state (add_ap ap (state (add_ap ap2 ns)))
       = state (add_ap ap2 (state (add_ap ap ns))))
  ∧ (∀ request t peak,
       state (add_ap ap (state (process_request (id ap) request t peak ns)))
       = state (add_ap ap ns)).
Proof.
  unfold add_ap. cbn [state]. split_and!.
  - apply insert_insert_eq.
  - intros ap2 Hne. by apply insert_insert_ne.
  - intros request t peak.
    destruct (process_request_local ns ns (id ap) request t peak eq_refl)
      as (_ & _ & [[-> _]|(ap' & -> & _)]); [done|].
    apply insert_insert_eq.
Qed.

Lemma add_ap_composes_witness :
  let ap := mkAccessPoint "AP-001" 6 20 0 in
  let ap2 := mkAccessPoint "AP-002" 1 17 0 in
  state (add_ap ap (state (add_ap ap2 ∅)))
  = state (add_ap ap2 (state (add_ap ap ∅))).
Proof.
  intros ap ap2.
  refine (proj1 (proj2 (add_ap_composes ∅ ap)) ap2 _). discriminate.
Defined.

(** ** [main] *)

(** X12.  [main] runs to its end: none of its assertions fails and no
    [get_ap_state] throws; it returns 0, the last thing it prints is the
    success line, and the planner is left with the one device AP-001 on
    channel 6 at 22 dB, last changed at minute 1100. *)
Theorem main_passes :
  ∃ out,
    main (∅, []) = inr (0, ({[ "AP-001" := mkAccessPoint "AP-001" 6 22 1100 ]}, out))
    ∧ last out
      = Some (endl +:+ "======== All C++ Tests Passed Successfully! ========"
                +:+ endl)
    ∧ length out = 21%nat.
Proof. eexists. split_and!; vm_compute; reflexivity. Qed.

(** ** The text of the printed lines *)

Section Text.

Lemma string_app_cons c s t : String c s +:+ t = String c (s +:+ t).
Proof. reflexivity. Qed.

Lemma string_app_length s t :
  String.length (s +:+ t) = (String.length s + String.length t)%nat.
Proof.
  induction s as [|c s IH]; [done|].
  rewrite string_app_cons. cbn [String.length]. by rewrite IH.
Qed.

Lemma string_app_assoc s t u : (s +:+ t) +:+ u = s +:+ t +:+ u.
Proof.
  induction s as [|c s IH]; [done|]. by rewrite !string_app_cons, IH.
Qed.

Lemma string_app_inv_tail s1 s2 t : s1 +:+ t = s2 +:+ t → s1 = s2.
Proof.
  revert s2. induction s1 as [|c s1 IH]; intros [|d s2] H.
  - done.
  - apply (f_equal String.length) in H.
    rewrite !string_app_length in H. cbn [String.length] in H. lia.
  - apply (f_equal String.length) in H.
    rewrite !string_app_length in H. cbn [String.length] in H. lia.
  - rewrite !string_app_cons in H. injection H as -> H. f_equal. by apply IH.
Qed.

Lemma absent_nil c : absent c "".
Proof. by intros [|x u] v. Qed.

Lemma absent_cons c d s : d ≠ c → absent c s → absent c (String d s).
Proof.
  intros Hd Hs [|x u] v; rewrite ?string_app_cons; intros [= H1 H2];
    [done|]. by eapply Hs.
Qed.

Lemma split_at_last c a b n1 n2 :
  absent c n1 → absent c n2 →
  a +:+ String c n1 = b +:+ String c n2 → a = b ∧ n1 = n2.
Proof.
  intros H1 H2. revert b.
  induction a as [|x a IH]; intros [|y b]; rewrite ?string_app_cons; intros H.
  - by injection H as ->.
  - injection H as <- H. by destruct (H1 b n2).
  - injection H as -> H. by destruct (H2 a n1).
  - injection H as -> H. destruct (IH b H) as [-> ->]. done.
Qed.

Lemma pretty_N_go_absent c x s :
  (∀ d, pretty_N_char d ≠ c) → absent c s → absent c (pretty_N_go x s).
Proof.
  intros Hc. revert s. induction (N.lt_wf_0 x) as [x _ IH]; intros s Hs.
  assert (x = 0 ∨ 0 < x)%N as [->|?] by lia.
  - by rewrite pretty_N_go_0.
  - rewrite pretty_N_go_step by done. apply IH.
    { by apply N.div_lt. }
    by apply absent_cons.
Qed.

Lemma pretty_Z_absent c (z : Z) :
  (∀ d, pretty_N_char d ≠ c) → c ≠ "-"%char → absent c (pretty z).
Proof.
  intros Hc Hdash. destruct z as [|x|x]; unfold pretty, pretty_Z.
  - apply absent_cons; [apply (Hc 0%N)|apply absent_nil].
  - unfold pretty, pretty_positive, pretty, pretty_N.
    case_decide; [done|]. apply pretty_N_go_absent; [done|apply absent_nil].
  - cbn. apply absent_cons; [done|].
    unfold pretty, pretty_positive, pretty, pretty_N.
    case_decide; [done|]. apply pretty_N_go_absent; [done|apply absent_nil].
Qed.

Lemma pretty_Z_no_space (z : Z) : absent " "%char (pretty z).
Proof.
  apply pretty_Z_absent; [|done].
  intros d. unfold pretty_N_char. by repeat case_match.
Qed.

Lemma pretty_Z_no_equals (z : Z) : absent "="%char (pretty z).
Proof.
  apply pretty_Z_absent; [|done].
  intros d. unfold pretty_N_char. by repeat case_match.
Qed.


Lemma num_field_inj c a b (n1 n2 : Z) tail :
  absent c (pretty n1) → absent c (pretty n2) →
  a +:+ String c (pretty n1 +:+ tail) = b +:+ String c (pretty n2 +:+ tail) →
  a = b ∧ n1 = n2.
Proof.
  intros H1 H2 H.
  assert (∀ x (n : Z), x +:+ String c (pretty n +:+ tail)
                       = (x +:+ String c (pretty n)) +:+ tail) as E.
  { intros x n. by rewrite string_app_assoc, string_app_cons. }
  rewrite !E in H. apply string_app_inv_tail in H.
  apply split_at_last in H as [-> Hn]; [|done..].
  split; [done|]. by apply (inj pretty).
Qed.

(** Each kind of line has its own wording, and the values a line mentions
    can be read back from it: numerals hold neither a space nor an equals
    sign, which is what ends the identifier in the lines that carry one. *)
Lemma render_inj l1 l2 : render l1 = render l2 → l1 = l2.
Proof.
  destruct l1, l2; intros H; try discriminate H; try reflexivity.
  all: unfold render in H.
  - apply (inj (String.append _)) in H.
    assert (∀ i pc X, i +:+ " (Ch: " +:+ pc +:+ ", Pwr: " +:+ X
                      = (i +:+ " (Ch: " +:+ pc +:+ ", Pwr:") +:+ String " " X) as E
      by (intros; by rewrite !string_app_assoc).
    rewrite !E in H.
    apply num_field_inj in H as [H ->]; [|apply pretty_Z_no_space..].
    assert (∀ i X, i +:+ " (Ch: " +:+ X
                   = (i +:+ " (Ch:") +:+ String " " X) as E'
      by (intros; by rewrite !string_app_assoc).
    rewrite !E' in H.
    apply num_field_inj in H as [H ->]; [|apply pretty_Z_no_space..].
    by apply string_app_inv_tail in H as ->.
  - apply (inj (String.append _)) in H.
    by apply string_app_inv_tail in H as ->.
  - apply (inj (String.append _)), (inj (String.append _)) in H.
    assert (∀ i X, i +:+ " at T=" +:+ X
                   = (i +:+ " at T") +:+ String "=" X) as E
      by (intros; by rewrite !string_app_assoc).
    rewrite !E in H.
    apply num_field_inj in H as [H ->]; [|apply pretty_Z_no_equals..].
    by apply string_app_inv_tail in H as ->.
  - apply (inj (String.append _)) in H.
    apply string_app_inv_tail in H. by apply (inj pretty) in H as ->.
  - apply (inj (String.append _)) in H.
    apply string_app_inv_tail in H. by apply (inj pretty) in H as ->.
  - apply (inj (String.append _)) in H.
    apply string_app_inv_tail in H. by apply (inj pretty) in H as ->.
  - apply (inj (String.append _)) in H.
    apply string_app_inv_tail in H. by apply (inj pretty) in H as ->.
Qed.

End Text.

(** X13.  The text written for a line tells which line it is and gives back
    every value it mentions, identifiers with arbitrary characters
    included: different lines never have the same text, and two calls that
    write the same texts printed the same lines. *)
Theorem printed_text_identifies_lines :
  (∀ l1 l2, render l1 = render l2 → l1 = l2)
  ∧ (∀ ls1 ls2 : list Line, render <$> ls1 = render <$> ls2 → ls1 = ls2).
Proof.
  split; [apply render_inj|].
  induction ls1 as [|l1 ls1 IH]; intros [|l2 ls2]; cbn; try done.
  intros [= H1 H2]. f_equal; [by apply render_inj|by apply IH].
Qed.

Lemma printed_text_identifies_lines_witness :
  RejectBudget 100 = RejectBudget 100.
Proof.
  refine (proj1 printed_text_identifies_lines (RejectBudget 100)
            (RejectBudget 100) _).
  reflexivity.
Defined.

(** ** Submitting a request again *)



(** ** Waiting *)

(** X15.  Waiting never turns an acceptance into a rejection: a request
    accepted at [t] is accepted at every later [t'] under the same
    peak-hour flag (the two elapsed times not overflowing), and it leaves
    the same [channel] and [power_db]. *)
Theorem later_request_still_accepted
    (ns : gmap string AccessPoint) ap_id ap request t t' peak :
  ns !! ap_id = Some ap →
  Int.in_range (t - last_change_time_minutes ap) →
  Int.in_range (t' - last_change_time_minutes ap) →
  t ≤ t' →
  returned (process_request ap_id request t peak ns) = true →
  returned (process_request ap_id request t' peak ns) = true
  ∧ ∃ a a', state (process_request ap_id request t peak ns) !! ap_id = Some a
      ∧ state (process_request ap_id request t' peak ns) !! ap_id = Some a'
      ∧ channel a = channel a' ∧ power_db a = power_db a'.
Proof.
  intros Hfound Hr Hr' Hle Hret.
  destruct (process_request_exit ap_id request t peak ns)
    as [ | | | | ap0 Hf Hw Hb Hh ]; try discriminate Hret.
  rewrite Hfound in Hf. injection Hf as <-.
  assert (CHANGE_BUDGET_MINUTES ≤ time_since_last_change t' ap) as Hb'.
  { rewrite time_since_last_change_exact in * by done. lia. }
  rewrite (exit_accept _ _ _ _ _ ap) by done. cbn [returned state].
  split; [done|].
  exists (apply_request request t ap).1, (apply_request request t' ap).1.
  rewrite !lookup_insert_eq, !apply_request_unfold. by cbn.
Qed.

Lemma later_request_still_accepted_witness :
  let ap := mkAccessPoint "AP-001" 6 20 0 in
  let ns : gmap string AccessPoint := {[ "AP-001" := ap ]} in
  returned (process_request "AP-001" (mkChangeRequest (Some 11) None false)
              1000 false ns) = true.
Proof.
  intros ap ns.
  refine (proj1
    (later_request_still_accepted ns "AP-001" ap
       (mkChangeRequest (Some 11) None false) 250 1000 false _ _ _ _ _)).
  - reflexivity.
  - vm_compute. split; discriminate.
  - vm_compute. split; discriminate.
  - vm_compute. discriminate.
  - reflexivity.
Defined.
